(** * Micro-frontend composition with module federation: host and remote

    A shallow embedding of the two Angular applications of the workspace:
    the [dashboard] host ([apps/dashboard/src/app/app.module.ts]) and the
    [admin] remote (its root module and [admin-panel.module.ts]), together
    with the bundler options and the development ports of the README.

    The repository's own code is configuration plus one closure, the
    [loadChildren] callback of the host route.  The third-party pieces it
    calls (the promise returned by [loadRemoteModule], property access on
    the fetched module object, the router's lookup of a URL in a route
    table) are modelled here by small executable definitions, each with a
    comment that says which library behaviour it stands for. *)

From Stdlib Require Import Ascii.
From stdpp Require Import base option list strings gmap pretty.

Open Scope string_scope.

#[local] Set Warnings "-register-all,-clear-no-such-hyp".

(** ** JavaScript values *)

(** Classes referenced by the two applications.  Both applications import
    a class named [AppComponent] from their own [./app.component] and
    declare a class named [AppModule]; they are different classes, so the
    embedding gives them different constructors. *)
Inductive Class :=
| DashboardAppComponent
| DashboardAppModule
| AdminAppComponent
| AdminAppModule
| AdminPanelComponent
| AdminPanelModuleClass
| BrowserModule
| CommonModule
| RouterModule.

#[global] Instance Class_eq_dec : EqDecision Class.
Proof. solve_decision. Defined.

(** The values a promise of type [Promise<any>] can carry.  An object is
    its table of own properties. *)
Inductive JsValue :=
| JsUndefined
| JsNull
| JsNum (n : Z)
| JsStr (s : string)
| JsClass (c : Class)
| JsObject (props : gmap string JsValue).

(** Outcome of evaluating an expression: a value, or a thrown exception. *)
Inductive Completion (A : Type) :=
| Normal (a : A)
| Throw (e : JsValue).
Arguments Normal {A} a.
Arguments Throw {A} e.

(** The exception raised by a property read on [undefined] or [null]. *)
Definition TypeError (message : string) : JsValue :=
  JsObject {[ "name" := JsStr "TypeError"; "message" := JsStr message ]}.

(** [v.key] for a key that no built-in prototype defines (the only key
    the source reads is [AdminPanelModule]): an object answers with its
    own property or [undefined]; [undefined] and [null] throw; every
    other value has no such property. *)
Definition get_property (v : JsValue) (key : string) : Completion JsValue :=
  match v with
  | JsUndefined =>
      Throw (TypeError ("Cannot read property '" ++ key ++ "' of undefined"))
  | JsNull =>
      Throw (TypeError ("Cannot read property '" ++ key ++ "' of null"))
  | JsObject props => Normal (default JsUndefined (props !! key))
  | JsNum _ | JsStr _ | JsClass _ => Normal JsUndefined
  end.

(** ** Promises *)

(** The state a promise ends in: fulfilled with a value, rejected with a
    reason, or never settled. *)
Inductive Promise (A : Type) :=
| Fulfilled (a : A)
| Rejected (reason : JsValue)
| Pending.
Arguments Fulfilled {A} a.
Arguments Rejected {A} reason.
Arguments Pending {A}.

(** [p.then(onFulfilled, onRejected)].  A handler that throws rejects the
    derived promise; without [onRejected] a rejection passes through with
    its reason; a promise that never settles derives one that never
    settles. *)
Definition promise_then {A B : Type} (p : Promise A)
    (onFulfilled : A → Completion B)
    (onRejected : option (JsValue → Completion B)) : Promise B :=
  let settle c :=
    match c with
    | Normal b => Fulfilled b
    | Throw e => Rejected e
    end in
  match p with
  | Fulfilled a => settle (onFulfilled a)
  | Rejected e =>
      match onRejected with
      | Some handler => settle (handler e)
      | None => Rejected e
      end
  | Pending => Pending
  end.

(** ** The world outside the program *)

(** Argument record of [loadRemoteModule]. *)
Record LoadRemoteModuleOptions := {
  remoteEntry : string;
  remoteName : string;
  exposedModule : string;
}.

#[global] Instance LoadRemoteModuleOptions_eq_dec :
  EqDecision LoadRemoteModuleOptions.
Proof. solve_decision. Defined.

(** What the program cannot control: how the network and the remote
    answer the n-th call of [loadRemoteModule] ([remote]), and the calls
    made so far ([calls], oldest first). *)
Record World := {
  remote : nat → LoadRemoteModuleOptions → Promise JsValue;
  calls : list LoadRemoteModuleOptions;
}.

(** Computations that may call out to the world. *)
Definition IO (A : Type) : Type := World → A * World.

#[global] Instance IO_ret : MRet IO := λ A a w, (a, w).
#[global] Instance IO_bind : MBind IO :=
  λ A B f m w, let '(a, w') := m w in f a w'.

(** [loadRemoteModule] of [@angular-architects/module-federation]: an
    async function, so every outcome, failures included, arrives as the
    state of the returned promise.  Each call is recorded. *)
Definition loadRemoteModule (options : LoadRemoteModuleOptions)
  : IO (Promise JsValue) :=
  λ w, (remote w (length (calls w)) options,
        {| remote := remote w; calls := calls w ++ [options] |}).

(** ** Routes and module metadata *)

(** A [Route] of [@angular/router], with the three keys the sources use. *)
Record Route := {
  path : string;
  component : option Class;
  loadChildren : option (IO (Promise JsValue));
}.

(** [initialNavigation] of the router's [ExtraOptions]. *)
Inductive InitialNavigation :=
| enabled
| disabled
| legacy_enabled
| legacy_disabled.

Record ExtraOptions := {
  initialNavigation : InitialNavigation;
}.

(** An entry of an [imports] array: a module class of a library, a
    module of the workspace (which carries its own metadata), or the
    result of one of [RouterModule]'s static methods. *)
Inductive Import (M : Type) :=
| ImportClass (c : Class)
| ImportModule (m : M)
| RouterModule_forRoot (routes : list Route) (config : ExtraOptions)
| RouterModule_forChild (routes : list Route).
Arguments ImportClass {M} c.
Arguments ImportModule {M} m.
Arguments RouterModule_forRoot {M} routes config.
Arguments RouterModule_forChild {M} routes.

(** The metadata object passed to [@NgModule], and the decorated class. *)
Inductive NgModule := {
  ngClass : Class;
  declarations : list Class;
  imports : list (Import NgModule);
  exports : list Class;
  providers : list Class;
  bootstrap : list Class;
}.

(** ** The admin remote *)

(** [apps/admin/src/app/admin-panel/admin-panel.module.ts]. *)
Module AdminPanel.

Definition routes : list Route := [
  {| path := "";
     component := Some AdminPanelComponent;
     loadChildren := None |}
].

Definition AdminPanelModule : NgModule := {|
  ngClass := AdminPanelModuleClass;
  declarations := [AdminPanelComponent];
  imports := [ImportClass CommonModule; RouterModule_forChild routes];
  exports := [RouterModule];
  providers := [];
  bootstrap := [];
|}.

(** The module namespace object of the file: its one [export]. *)
Definition module_object : gmap string JsValue :=
  {[ "AdminPanelModule" := JsClass AdminPanelModuleClass ]}.

End AdminPanel.

(** The root module of the admin application. *)
Module Admin.

Definition AppComponent : Class := AdminAppComponent.

Definition AppModule : NgModule := {|
  ngClass := AdminAppModule;
  declarations := [AppComponent];
  imports := [
    ImportClass BrowserModule;
    RouterModule_forRoot [] {| initialNavigation := enabled |};
    ImportModule AdminPanel.AdminPanelModule
  ];
  exports := [];
  providers := [];
  bootstrap := [AppComponent];
|}.

End Admin.

(** ** The dashboard host *)

(** [apps/dashboard/src/app/app.module.ts]. *)
Module Dashboard.

Definition AppComponent : Class := DashboardAppComponent.

Definition routes : list Route := [
  {| path := "admin-panel";
     component := None;
     loadChildren := Some (
       p ← loadRemoteModule {|
              remoteEntry := "http://localhost:4201/remoteEntry.js";
              remoteName := "admin";
              exposedModule := "./Module";
            |};
       mret (promise_then p (λ m, get_property m "AdminPanelModule") None)) |}
].

Definition AppModule : NgModule := {|
  ngClass := DashboardAppModule;
  declarations := [AppComponent];
  imports := [
    ImportClass BrowserModule;
    RouterModule_forRoot routes {| initialNavigation := enabled |}
  ];
  exports := [];
  providers := [];
  bootstrap := [AppComponent];
|}.

End Dashboard.

(** ** Bundler options and development servers (README) *)

(** How a package is shared between bundles. *)
Record SharedConfig := {
  singleton : bool;
  strictVersion : bool;
}.

(** The options the README passes to [ModuleFederationPlugin] in
    [apps/admin/webpack.config.js]. *)
Module AdminWebpack.

Definition name : string := "admin".
Definition filename : string := "remoteEntry.js".
Definition exposes : gmap string string :=
  {[ "./Module" := "./apps/admin/src/app/admin-panel/admin-panel.module.ts" ]}.

(** The three packages the [shared] option names. *)
Definition shared_named : gmap string SharedConfig :=
  {[ "@angular/core" := {| singleton := true; strictVersion := true |};
     "@angular/common" := {| singleton := true; strictVersion := true |};
     "@angular/router" := {| singleton := true; strictVersion := true |} ]}.

(** The [shared] option: the named packages, then the spread of
    [sharedMappings.getDescriptors()], whose keys replace equal keys
    written before it.  The descriptors come from the generated part of
    the configuration and are a parameter here. *)
Definition shared (descriptors : gmap string SharedConfig)
  : gmap string SharedConfig :=
  descriptors ∪ shared_named.

End AdminWebpack.

(** The [remotes] option of [apps/dashboard/webpack.config.js]. *)
Module DashboardWebpack.

Definition remotes : gmap string string :=
  {[ "admin" := "admin@http://localhost:4201/remoteEntry.js" ]}.

End DashboardWebpack.

(** [ng add @angular-architects/module-federation --project p --port n]. *)
Record NgAdd := {
  project : string;
  port : N;
}.

Definition ng_add : list NgAdd := [
  {| project := "dashboard"; port := 4200 |};
  {| project := "admin"; port := 4201 |}
].

(** Port a project is served on in development mode: the last [ng add]
    for the project decides. *)
Definition dev_port (p : string) : option N :=
  port <$> last (filter (λ c, project c = p) ng_add).

(** Address of a file served by a project's development server. *)
Definition dev_url (p file : string) : option string :=
  (λ n, "http://localhost:" ++ pretty n ++ "/" ++ file) <$> dev_port p.

(** Source files of the workspace that the bundler options name, with the
    module namespace object each evaluates to. *)
Definition workspace_modules : gmap string (gmap string JsValue) :=
  {[ "./apps/admin/src/app/admin-panel/admin-panel.module.ts" :=
       AdminPanel.module_object ]}.

(** The modules the admin container serves: one per key of [exposes]
    whose file exists. *)
Definition admin_container : gmap string (gmap string JsValue) :=
  omap (λ file, workspace_modules !! file) AdminWebpack.exposes.

(** How [loadRemoteModule] answers while [nx serve admin] runs: the
    script at the entry address defines the container under its [name],
    and the container hands out the exposed module asked for.  The
    arguments are compared as the README spells them; other spellings of
    the same address are not modelled. *)
Definition admin_served (options : LoadRemoteModuleOptions)
  : Promise JsValue :=
  if decide (Some (remoteEntry options)
             = dev_url "admin" AdminWebpack.filename)
  then
    if decide (remoteName options = AdminWebpack.name)
    then
      match admin_container !! exposedModule options with
      | Some m => Fulfilled (JsObject m)
      | None =>
          Rejected (JsObject {[
            "name" := JsStr "Error";
            "message" := JsStr ("Module " ++ exposedModule options
                                ++ " does not exist in container.") ]})
      end
    else
      Rejected (TypeError "Cannot read property 'init' of undefined")
  else
    Rejected (JsObject {[
      "name" := JsStr "Error";
      "message" := JsStr ("Error loading " ++ remoteEntry options) ]}).

(** A world in which the admin remote is up and nothing was called yet. *)
Definition admin_up : World :=
  {| remote := λ _, admin_served; calls := [] |}.

(** A world in which every load is answered by the given promise. *)
Definition answering (p : Promise JsValue) : World :=
  {| remote := λ _ _, p; calls := [] |}.

(** ** The router *)

(** Metadata of a class used as a module.  Library modules contribute no
    declarations and no routes; components are not modules. *)
Definition ngModuleDef (c : Class) : option NgModule :=
  match c with
  | DashboardAppModule => Some Dashboard.AppModule
  | AdminAppModule => Some Admin.AppModule
  | AdminPanelModuleClass => Some AdminPanel.AdminPanelModule
  | BrowserModule | CommonModule | RouterModule =>
      Some {| ngClass := c; declarations := []; imports := [];
              exports := []; providers := []; bootstrap := [] |}
  | DashboardAppComponent | AdminAppComponent | AdminPanelComponent => None
  end.

(** The routes a module registers with the router: those of its own
    [forRoot] and [forChild] imports and of the workspace modules it
    imports, in the order of the [imports] array. *)
Fixpoint provided_routes (m : NgModule) : list Route :=
  flat_map (λ i,
    match i with
    | ImportClass _ => []
    | ImportModule m' => provided_routes m'
    | RouterModule_forRoot routes _ => routes
    | RouterModule_forChild routes => routes
    end) (imports m).

(** The [ExtraOptions] of the [forRoot] calls among a module's imports. *)
Definition router_options (m : NgModule) : list ExtraOptions :=
  flat_map (λ i,
    match i with
    | RouterModule_forRoot _ config => [config]
    | _ => []
    end) (imports m).

(** The routes handed to [forRoot] among a module's imports. *)
Definition root_routes (m : NgModule) : list Route :=
  flat_map (λ i,
    match i with
    | RouterModule_forRoot routes _ => routes
    | _ => []
    end) (imports m).

(** [s.split(sep)]. *)
Fixpoint split_on (sep : Ascii.ascii) (s : string) : list string :=
  match s with
  | EmptyString => [EmptyString]
  | String c s' =>
      if decide (c = sep) then EmptyString :: split_on sep s'
      else
        match split_on sep s' with
        | part :: parts => String c part :: parts
        | [] => [String c EmptyString]
        end
  end.

(** The parts a route path is matched by; the empty path has none. *)
Definition path_parts (p : string) : list string :=
  if decide (p = "") then [] else split_on "/"%char p.

(** Prefix matching of the default URL matcher: every part must equal
    the segment at its position, a part that starts with a colon takes
    any segment.  The result is what is left of the URL. *)
Fixpoint consume (parts segments : list string) : option (list string) :=
  match parts, segments with
  | [], _ => Some segments
  | _ :: _, [] => None
  | p :: parts', s :: segments' =>
      if decide (p = s) then consume parts' segments'
      else
        match p with
        | String ":"%char _ => consume parts' segments'
        | _ => None
        end
  end.

(** Outcome of a navigation. *)
Inductive Navigation :=
| Activated (components : list Class)
| NoMatch
| LoadRejected (reason : JsValue)
| LoadPending
| NotAModule (v : JsValue)
| TooDeep.

(** What lies below a route that matched a prefix of the URL, [rest]
    being what is left of the URL.  A route without children must have
    used up the URL.  A lazy route runs its [loadChildren] callback and
    the rest is recognised, by [recur], against the routes of the module
    the promise delivers; a load that delivers no module ends the
    navigation. *)
Definition enter
    (recur : option (list Route → list string → IO Navigation))
    (r : Route) (rest : list string) : IO Navigation :=
  match loadChildren r with
  | None =>
      mret (match rest with [] => Activated [] | _ :: _ => NoMatch end)
  | Some load =>
      match recur with
      | None => mret TooDeep
      | Some recognize_children =>
          p ← load;
          match p with
          | Fulfilled (JsClass c) =>
              match ngModuleDef c with
              | Some m => recognize_children (provided_routes m) rest
              | None => mret (NotAModule (JsClass c))
              end
          | Fulfilled v => mret (NotAModule v)
          | Rejected reason => mret (LoadRejected reason)
          | Pending => mret LoadPending
          end
      end
  end.

(** Recognition of a URL, given as its segments, against a route table:
    routes are tried in declaration order; a route whose path is a prefix
    of the URL is entered; a route whose children do not match is
    abandoned for the next one; a URL without segments that nothing
    matches activates nothing.  [depth] bounds the nesting of lazy
    modules. *)
Fixpoint recognize (depth : nat) (config : list Route)
    (segments : list string) : IO Navigation :=
  let recur :=
    match depth with
    | 0 => None
    | S depth' => Some (recognize depth')
    end in
  (fix try (rs : list Route) : IO Navigation :=
     match rs with
     | [] =>
         mret (match segments with [] => Activated [] | _ :: _ => NoMatch end)
     | r :: rs' =>
         match consume (path_parts (path r)) segments with
         | None => try rs'
         | Some rest =>
             n ← enter recur r rest;
             match n with
             | Activated cs =>
                 mret (Activated (option_list (component r) ++ cs))
             | NoMatch => try rs'
             | other => mret other
             end
         end
     end) config.

(** Nesting of lazy modules the router is run with. *)
Definition max_depth : nat := 8.

(** Navigation of an application to a URL. *)
Definition navigate (app : NgModule) (segments : list string)
  : IO Navigation :=
  recognize max_depth (provided_routes app) segments.

(** ** The running application *)

(** The functions of the workspace that a route names under
    [loadChildren]: the arrow function of [app.module.ts], lines 11-16,
    is the only one. *)
Inductive Loader :=
| AdminPanelLoader.

(** What the router keeps of a module it loaded: the class and the
    routes the module provided. *)
Record LoadedRouterConfig := {
  loaded_module : Class;
  loaded_routes : list Route;
}.

(** A route as the router holds it: the keys of the declaration, with
    the function by its name, and the module the router attaches to a
    lazy route once it was loaded. *)
Record RouteEntry := {
  entry_path : string;
  entry_component : option Class;
  entry_loadChildren : option Loader;
  loadedConfig : option LoadedRouterConfig;
}.

(** A running application: the router's table and the world.  Every
    function of the workspace runs on this state. *)
Record Runtime := {
  router_config : list RouteEntry;
  world : World;
}.

(** The functions of the workspace, on the state of the running
    application.  The arrow function of the host route calls
    [loadRemoteModule] with its object literal and reads
    [AdminPanelModule] from what arrives; it assigns to nothing. *)
Definition call_loader (l : Loader) (rt : Runtime)
  : Promise JsValue * Runtime :=
  match l with
  | AdminPanelLoader =>
      let '(p, w) :=
        loadRemoteModule {|
          remoteEntry := "http://localhost:4201/remoteEntry.js";
          remoteName := "admin";
          exposedModule := "./Module";
        |} (world rt) in
      (promise_then p (λ m, get_property m "AdminPanelModule") None,
       {| router_config := router_config rt; world := w |})
  end.

(** The declaration an entry of the router's table stands for. *)
Definition declaration (e : RouteEntry) : Route :=
  {| path := entry_path e;
     component := entry_component e;
     loadChildren :=
       (λ l w, let '(p, rt) :=
                 call_loader l {| router_config := []; world := w |} in
               (p, world rt)) <$> entry_loadChildren e |}.

(** The table the router reads from a root module when the application
    starts: the routes the module provides, nothing loaded yet.  The
    workspace has one function for [loadChildren], so that is the name
    every lazy route gets. *)
Definition entries_of (app : NgModule) : list RouteEntry :=
  (λ r, {| entry_path := path r;
           entry_component := component r;
           entry_loadChildren := (λ _, AdminPanelLoader) <$> loadChildren r;
           loadedConfig := None |}) <$> provided_routes app.

(** The application right after its router was configured. *)
Definition start (app : NgModule) (w : World) : Runtime :=
  {| router_config := entries_of app; world := w |}.

(** The outcome for a URL that no route matched. *)
Definition unmatched (segments : list string) : Navigation :=
  match segments with
  | [] => Activated []
  | _ :: _ => NoMatch
  end.

(** The routes of a loaded module are recognised as one navigation
    recognises them below the first lazy route. *)
Definition children_depth : nat := Nat.pred max_depth.

(** What lies below the [i]-th entry of the router's table, once its
    path matched.  A lazy entry that carries a loaded module goes on in
    the routes kept with it and calls nothing.  Otherwise its function
    runs; when that delivers a module, the router attaches the module to
    the entry and goes on in its routes. *)
Definition enter_entry (i : nat) (e : RouteEntry) (rest : list string)
    (rt : Runtime) : Navigation * Runtime :=
  match entry_loadChildren e with
  | None => (unmatched rest, rt)
  | Some l =>
      match loadedConfig e with
      | Some cfg =>
          let '(n, w) :=
            recognize children_depth (loaded_routes cfg) rest (world rt) in
          (n, {| router_config := router_config rt; world := w |})
      | None =>
          let '(p, rt1) := call_loader l rt in
          match p with
          | Fulfilled (JsClass c) =>
              match ngModuleDef c with
              | Some m =>
                  let cfg := {| loaded_module := c;
                                loaded_routes := provided_routes m |} in
                  let attach e' :=
                    {| entry_path := entry_path e';
                       entry_component := entry_component e';
                       entry_loadChildren := entry_loadChildren e';
                       loadedConfig := Some cfg |} in
                  let '(n, w) :=
                    recognize children_depth (loaded_routes cfg) rest
                      (world rt1) in
                  (n, {| router_config := alter attach i (router_config rt1);
                         world := w |})
              | None => (NotAModule (JsClass c), rt1)
              end
          | Fulfilled v => (NotAModule v, rt1)
          | Rejected reason => (LoadRejected reason, rt1)
          | Pending => (LoadPending, rt1)
          end
      end
  end.

(** Recognition against the router's table, from its [i]-th entry on and
    for at most [n] entries, each read from the table as it then is. *)
Fixpoint visit_from (n i : nat) (segments : list string) (rt : Runtime)
  : Navigation * Runtime :=
  match n with
  | 0 => (unmatched segments, rt)
  | S n' =>
      match router_config rt !! i with
      | None => (unmatched segments, rt)
      | Some e =>
          match consume (path_parts (entry_path e)) segments with
          | None => visit_from n' (S i) segments rt
          | Some rest =>
              let '(o, rt') := enter_entry i e rest rt in
              match o with
              | Activated cs =>
                  (Activated (option_list (entry_component e) ++ cs), rt')
              | NoMatch => visit_from n' (S i) segments rt'
              | other => (other, rt')
              end
          end
      end
  end.

(** One navigation of a running application. *)
Definition navigateByUrl (segments : list string) (rt : Runtime)
  : Navigation * Runtime :=
  visit_from (length (router_config rt)) 0 segments rt.

(** A sequence of navigations, with the outcome of each. *)
Fixpoint navigations (urls : list (list string)) (rt : Runtime)
  : list Navigation * Runtime :=
  match urls with
  | [] => ([], rt)
  | url :: urls' =>
      let '(n, rt') := navigateByUrl url rt in
      let '(ns, rt'') := navigations urls' rt' in
      (n :: ns, rt'')
  end.

(** What starting an application does: whether the router performed the
    initial navigation, with its outcome, and the components the root
    module hands to the bootstrap.  The order of the two and the waiting
    of one for the other are not part of the model. *)
Record Startup := {
  initial_navigation : option Navigation;
  shell : list Class;
}.

(** [bootstrapModule]: the router is configured from the root module and
    navigates to the URL the application was opened at, unless
    [initialNavigation] switches that off; a module without [forRoot]
    has no router. *)
Definition bootstrapModule (app : NgModule) (url : list string) (w : World)
  : Startup * Runtime :=
  match initialNavigation <$> head (router_options app) with
  | Some enabled | Some legacy_enabled =>
      let '(n, rt) := navigateByUrl url (start app w) in
      ({| initial_navigation := Some n; shell := bootstrap app |}, rt)
  | Some disabled | Some legacy_disabled | None =>
      ({| initial_navigation := None; shell := bootstrap app |},
       start app w)
  end.

(** ** The host's template (README) *)


(** [apps/dashboard/src/app/app.component.html]. *)
Module DashboardTemplate.


End DashboardTemplate.





(** ** Well-formedness of module metadata *)

(** The class an [imports] entry stands for. *)
Definition import_class (i : Import NgModule) : Class :=
  match i with
  | ImportClass c => c
  | ImportModule m => ngClass m
  | RouterModule_forRoot _ _ | RouterModule_forChild _ => RouterModule
  end.

(** The routes a module registers itself, without those of the modules
    it imports. *)
Definition own_routes (m : NgModule) : list Route :=
  flat_map (λ i,
    match i with
    | RouterModule_forRoot routes _ => routes
    | RouterModule_forChild routes => routes
    | _ => []
    end) (imports m).

(** ** Vocabulary of the statements *)

(** The [loadChildren] callback of the first route of the host's table;
    a table without one would give a promise that never settles. *)
Definition host_loadChildren : IO (Promise JsValue) :=
  default (mret Pending) (head Dashboard.routes ≫= loadChildren).

(** The object literal the host passes to [loadRemoteModule]. *)
Definition host_options : LoadRemoteModuleOptions :=
  {| remoteEntry := "http://localhost:4201/remoteEntry.js";
     remoteName := "admin";
     exposedModule := "./Module" |}.

(** The answer the world has in store for the next call. *)
Definition next_answer (w : World) (options : LoadRemoteModuleOptions)
  : Promise JsValue :=
  remote w (length (calls w)) options.

(** The world after one more call. *)
Definition called (w : World) (options : LoadRemoteModuleOptions) : World :=
  {| remote := remote w; calls := calls w ++ [options] |}.

(** A route is tame when it is not lazy or loads as the host route does. *)
Definition tame (r : Route) : Prop :=
  loadChildren r = None ∨ loadChildren r = Some host_loadChildren.


(** [w'] is [w] after some more calls, all of them the host's. *)
Definition extends (w w' : World) : Prop :=
  remote w' = remote w
  ∧ ∃ k : nat, calls w' = (calls w ++ replicate k host_options)%list.


(** * Theorems *)

Lemma host_loadChildren_eq :
  host_loadChildren
  = (p ← loadRemoteModule host_options;
     mret (promise_then p (λ m, get_property m "AdminPanelModule") None)).
Proof. reflexivity. Qed.

Lemma host_loadChildren_unfold (w : World) :
  host_loadChildren w
  = (promise_then (next_answer w host_options)
       (λ m, get_property m "AdminPanelModule") None,
     called w host_options).
Proof. reflexivity. Qed.

Lemma recognize_nil (depth : nat) (segments : list string) (w : World) :
  recognize depth [] segments w
  = (match segments with [] => Activated [] | _ :: _ => NoMatch end, w).
Proof. destruct depth; reflexivity. Qed.

Lemma recognize_cons (depth : nat) (r : Route) (rs : list Route)
    (segments : list string) :
  recognize depth (r :: rs) segments
  = match consume (path_parts (path r)) segments with
    | None => recognize depth rs segments
    | Some rest =>
        n ← enter (match depth with
                   | 0 => None
                   | S depth' => Some (recognize depth')
                   end) r rest;
        match n with
        | Activated cs =>
            mret (Activated (option_list (component r) ++ cs))
        | NoMatch => recognize depth rs segments
        | other => mret other
        end
    end.
Proof. destruct depth; reflexivity. Qed.

(** A URL of the host that starts with [admin-panel] runs the callback
    once and goes on, with the rest of the URL, in the module the promise
    delivered. *)
Lemma navigate_admin_panel (rest : list string) (w : World) :
  navigate Dashboard.AppModule ("admin-panel" :: rest) w
  = match (host_loadChildren w).1 with
    | Fulfilled (JsClass c) =>
        match ngModuleDef c with
        | Some m =>
            recognize 7 (provided_routes m) rest (called w host_options)
        | None => (NotAModule (JsClass c), called w host_options)
        end
    | Fulfilled v => (NotAModule v, called w host_options)
    | Rejected reason => (LoadRejected reason, called w host_options)
    | Pending => (LoadPending, called w host_options)
    end.
Proof.
  unfold navigate, max_depth.
  change (provided_routes Dashboard.AppModule) with Dashboard.routes.
  unfold Dashboard.routes. rewrite recognize_cons.
  change (consume _ _) with (Some rest).
  unfold enter. change (loadChildren _) with (Some host_loadChildren).
  unfold mbind, IO_bind, mret, IO_ret, component.
  rewrite host_loadChildren_unfold. cbn [fst].
  generalize (called w host_options) as w1. intros w1.
  destruct (promise_then _ _ _) as [v| |]; try reflexivity.
  destruct v; try reflexivity.
  destruct (ngModuleDef c) as [m|]; try reflexivity.
  destruct (recognize 7 (provided_routes m) rest w1) as [n w2].
  destruct n; reflexivity.
Qed.

(** *** Calls only accumulate *)

Lemma extends_refl (w : World) : extends w w.
Proof. split; [done|]. exists 0. cbn. by rewrite app_nil_r. Qed.

Lemma extends_trans (w1 w2 w3 : World) :
  extends w1 w2 → extends w2 w3 → extends w1 w3.
Proof.
  intros [Hr1 [k1 Hc1]] [Hr2 [k2 Hc2]]. split; [congruence|].
  exists (k1 + k2). by rewrite Hc2, Hc1, replicate_add, app_assoc.
Qed.

Lemma extends_called (w : World) : extends w (called w host_options).
Proof. split; [done|]. by exists 1. Qed.

Lemma host_loadChildren_extends (w : World) :
  extends w (host_loadChildren w).2.
Proof. rewrite host_loadChildren_unfold. apply extends_called. Qed.

(** Every route a workspace or library module provides is tame. *)
Lemma workspace_routes_tame (c : Class) (m : NgModule) :
  ngModuleDef c = Some m → Forall tame (provided_routes m).
Proof.
  destruct c; intros [= <-]; cbn; repeat constructor;
    first [by left | by right].
Qed.

Lemma enter_extends
    (recur : option (list Route → list string → IO Navigation))
    (r : Route) (rest : list string) (w : World) :
  tame r →
  (∀ k config segments w',
     recur = Some k → Forall tame config →
     extends w' (k config segments w').2) →
  extends w (enter recur r rest w).2.
Proof.
  intros [Hr|Hr] Hrec; unfold enter; rewrite Hr.
  - apply extends_refl.
  - destruct recur as [k|]; [|apply extends_refl].
    unfold mbind, IO_bind.
    pose proof (host_loadChildren_extends w) as Hload.
    destruct (host_loadChildren w) as [p w1]. cbn [snd] in Hload.
    destruct p as [v| |]; try exact Hload.
    destruct v; try exact Hload.
    destruct (ngModuleDef c) as [m|] eqn:Hm; try exact Hload.
    eapply extends_trans; [exact Hload|].
    apply Hrec; [done|]. by eapply workspace_routes_tame.
Qed.

Lemma recognize_extends (depth : nat) :
  ∀ (config : list Route) (segments : list string) (w : World),
    Forall tame config →
    extends w (recognize depth config segments w).2.
Proof.
  assert (Hstep : ∀ recur d,
    recur = match d with 0 => None | S d' => Some (recognize d') end →
    (∀ k config segments w',
       recur = Some k → Forall tame config →
       extends w' (k config segments w').2) →
    ∀ config segments w, Forall tame config →
      extends w (recognize d config segments w).2).
  { intros recur d Hd Hrec config segments.
    induction config as [|r rs IH]; intros w Htame.
    - rewrite recognize_nil. apply extends_refl.
    - apply Forall_cons in Htame as [Hr Hrs].
      rewrite recognize_cons, <- Hd.
      destruct (consume _ _) as [rest|]; [|by apply IH].
      unfold mbind, IO_bind.
      pose proof (enter_extends recur r rest w Hr Hrec) as He.
      destruct (enter _ r rest w) as [n w1]. cbn [snd] in He.
      destruct n; try exact He.
      eapply extends_trans; [exact He|]. by apply IH. }
  induction depth as [|d IHd]; intros config segments w Htame.
  - apply (Hstep None 0); [done| |done]. intros; discriminate.
  - apply (Hstep (Some (recognize d)) (S d)); [done| |done].
    intros k config' segments' w' [= <-] Htame'. by apply IHd.
Qed.

(** *** The host route *)

(** A URL whose first segment is not [admin-panel] matches nothing in the
    host's table and calls nothing. *)
Lemma navigate_elsewhere (segments : list string) (w : World) :
  head segments ≠ Some "admin-panel" →
  navigate Dashboard.AppModule segments w
  = (match segments with [] => Activated [] | _ :: _ => NoMatch end, w).
Proof.
  intros Hhead. unfold navigate, max_depth.
  change (provided_routes Dashboard.AppModule) with Dashboard.routes.
  unfold Dashboard.routes. rewrite recognize_cons.
  destruct segments as [|s rest]; [reflexivity|].
  change (consume _ _) with (consume ["admin-panel"] (s :: rest)).
  cbn [consume]. rewrite decide_False by (intros <-; by apply Hhead).
  apply recognize_nil.
Qed.

(** A URL whose first segment is [admin-panel] makes at least the call
    of the host route. *)
Lemma navigate_admin_panel_calls (rest : list string) (w : World) :
  extends (called w host_options)
    (navigate Dashboard.AppModule ("admin-panel" :: rest) w).2.
Proof.
  rewrite navigate_admin_panel.
  destruct (host_loadChildren w).1 as [v| |]; try apply extends_refl.
  destruct v; try apply extends_refl.
  destruct (ngModuleDef c) as [m|] eqn:Hm; try apply extends_refl.
  apply recognize_extends. by eapply workspace_routes_tame.
Qed.

(** Below the host route, a URL that ends at [admin-panel] makes no
    further call, whatever module was delivered. *)
Lemma children_of_empty (c : Class) (m : NgModule) (w : World) :
  ngModuleDef c = Some m →
  (recognize 7 (provided_routes m) [] w).2 = w.
Proof. destruct c; intros [= <-]; reflexivity. Qed.

(** C1: the host's route table has exactly one route, its path is
    [admin-panel], and navigating to it calls [loadRemoteModule] exactly
    once, with [remoteEntry] ['http://localhost:4201/remoteEntry.js'],
    [remoteName] ['admin'] and [exposedModule] ['./Module'].  A navigation
    of the host makes a call exactly when its URL starts with that path. *)
Theorem host_single_route_fetches_remote_once :
  provided_routes Dashboard.AppModule = Dashboard.routes
  ∧ length Dashboard.routes = 1
  ∧ path <$> Dashboard.routes = ["admin-panel"]
  ∧ (∀ w : World,
       calls (navigate Dashboard.AppModule ["admin-panel"] w).2
       = (calls w ++ [ {| remoteEntry := "http://localhost:4201/remoteEntry.js";
                          remoteName := "admin";
                          exposedModule := "./Module" |} ])%list)
  ∧ (∀ (segments : list string) (w : World),
       bool_decide (calls (navigate Dashboard.AppModule segments w).2
                    = calls w)
       = bool_decide (head segments ≠ Some "admin-panel")).
Proof.
  split_and!; try reflexivity.
  - intros w. rewrite navigate_admin_panel.
    destruct (host_loadChildren w).1 as [v| |]; try reflexivity.
    destruct v; try reflexivity.
    destruct (ngModuleDef c) as [m|] eqn:Hm; try reflexivity.
    by rewrite (children_of_empty c m).
  - intros segments w.
    destruct (decide (head segments = Some "admin-panel")) as [Hh|Hh].
    + destruct segments as [|s rest]; [done|]. injection Hh as ->.
      destruct (navigate_admin_panel_calls rest w) as [_ [k Hk]].
      rewrite (bool_decide_eq_false_2 (_ ≠ _)) by (intros Hne; by apply Hne).
      apply bool_decide_eq_false_2. rewrite Hk. cbn [called calls].
      intros Heq. apply (f_equal length) in Heq.
      rewrite !length_app in Heq. cbn in Heq. lia.
    + rewrite navigate_elsewhere by done.
      by rewrite !bool_decide_eq_true_2.
Qed.

(** C2: when the remote-module load fails, whatever the reason, the
    promise of the route's [loadChildren] is rejected with that same
    reason.  The callback passes no rejection handler to
    [then], makes the one call and no other, and the navigation ends in
    the failure: no recovery, no retry, no fallback. *)
Theorem load_failure_propagates (w : World) (reason : JsValue)
    (Hfail : next_answer w host_options = Rejected reason) :
  host_loadChildren
  = (p ← loadRemoteModule host_options;
     mret (promise_then p (λ m, get_property m "AdminPanelModule") None))
  ∧ host_loadChildren w = (Rejected reason, called w host_options)
  ∧ navigate Dashboard.AppModule ["admin-panel"] w
    = (LoadRejected reason, called w host_options).
Proof.
  split_and!; [reflexivity| |].
  - by rewrite host_loadChildren_unfold, Hfail.
  - by rewrite navigate_admin_panel, host_loadChildren_unfold, Hfail.
Qed.

Lemma load_failure_propagates_witness :
  next_answer (answering (Rejected (JsStr "ECONNREFUSED"))) host_options
  = Rejected (JsStr "ECONNREFUSED")
  ∧ navigate Dashboard.AppModule ["admin-panel"]
      (answering (Rejected (JsStr "ECONNREFUSED")))
    = (LoadRejected (JsStr "ECONNREFUSED"),
       called (answering (Rejected (JsStr "ECONNREFUSED"))) host_options).
Proof.
  split; [reflexivity|].
  apply (load_failure_propagates
           (answering (Rejected (JsStr "ECONNREFUSED")))
           (JsStr "ECONNREFUSED")).
  reflexivity.
Defined.

(** No timeout either: a load that never settles leaves the route's
    promise unsettled and the navigation waiting. *)
Lemma load_pending_stays_pending (w : World) :
  next_answer w host_options = Pending →
  host_loadChildren w = (Pending, called w host_options)
  ∧ navigate Dashboard.AppModule ["admin-panel"] w
    = (LoadPending, called w host_options).
Proof.
  intros Hp. split.
  - by rewrite host_loadChildren_unfold, Hp.
  - by rewrite navigate_admin_panel, host_loadChildren_unfold, Hp.
Qed.

(** C3: when the load succeeds with a module object, the route's promise
    is fulfilled with the object's [AdminPanelModule] property and
    depends on nothing else in the object. *)
Theorem load_success_resolves_named_export
    (w : World) (m : gmap string JsValue)
    (Hok : next_answer w host_options = Fulfilled (JsObject m)) :
  host_loadChildren w
  = (Fulfilled (default JsUndefined (m !! "AdminPanelModule")),
     called w host_options)
  ∧ (∀ (w' : World) (m' : gmap string JsValue),
       next_answer w' host_options = Fulfilled (JsObject m') →
       m' !! "AdminPanelModule" = m !! "AdminPanelModule" →
       (host_loadChildren w').1 = (host_loadChildren w).1).
Proof.
  split.
  - by rewrite host_loadChildren_unfold, Hok.
  - intros w' m' Hok' Hsame.
    rewrite !host_loadChildren_unfold, Hok, Hok'. cbn. by rewrite Hsame.
Qed.

Lemma load_success_resolves_named_export_witness :
  next_answer admin_up host_options
  = Fulfilled (JsObject AdminPanel.module_object)
  ∧ host_loadChildren admin_up
    = (Fulfilled (JsClass AdminPanelModuleClass),
       called admin_up host_options).
Proof.
  split; [reflexivity|].
  apply (load_success_resolves_named_export
           admin_up AdminPanel.module_object).
  reflexivity.
Defined.

(** C8: a module object without an [AdminPanelModule] property still
    fulfils the route's promise, with [undefined]: the resolver does not
    check that the export exists. *)
Theorem missing_export_fulfils_undefined
    (w : World) (m : gmap string JsValue)
    (Hok : next_answer w host_options = Fulfilled (JsObject m))
    (Hmissing : m !! "AdminPanelModule" = None) :
  host_loadChildren w = (Fulfilled JsUndefined, called w host_options).
Proof. by rewrite host_loadChildren_unfold, Hok; cbn; rewrite Hmissing. Qed.

Lemma missing_export_fulfils_undefined_witness :
  next_answer (answering (Fulfilled (JsObject ∅))) host_options
  = Fulfilled (JsObject ∅)
  ∧ (∅ : gmap string JsValue) !! "AdminPanelModule" = None
  ∧ host_loadChildren (answering (Fulfilled (JsObject ∅)))
    = (Fulfilled JsUndefined,
       called (answering (Fulfilled (JsObject ∅))) host_options).
Proof.
  split_and!; [reflexivity..|].
  apply (missing_export_fulfils_undefined
           (answering (Fulfilled (JsObject ∅))) ∅); reflexivity.
Defined.

(** C5: with the admin remote delivering a module object whose
    [AdminPanelModule] is the admin panel module, the host route resolves
    to that module, the module maps the empty path to
    [AdminPanelComponent], and navigating the host to [admin-panel]
    activates [AdminPanelComponent]. *)
Theorem admin_path_renders_admin_view
    (w : World) (m : gmap string JsValue)
    (Hok : next_answer w host_options = Fulfilled (JsObject m))
    (Hexport : m !! "AdminPanelModule" = Some (JsClass AdminPanelModuleClass)) :
  (host_loadChildren w).1 = Fulfilled (JsClass AdminPanelModuleClass)
  ∧ ngModuleDef AdminPanelModuleClass = Some AdminPanel.AdminPanelModule
  ∧ (λ r, (path r, component r)) <$> provided_routes AdminPanel.AdminPanelModule
    = [("", Some AdminPanelComponent)]
  ∧ navigate Dashboard.AppModule ["admin-panel"] w
    = (Activated [AdminPanelComponent], called w host_options).
Proof.
  assert (Hload : (host_loadChildren w).1
                  = Fulfilled (JsClass AdminPanelModuleClass)).
  { rewrite host_loadChildren_unfold, Hok. cbn. by rewrite Hexport. }
  split_and!; [done|reflexivity|reflexivity|].
  rewrite navigate_admin_panel, Hload. reflexivity.
Qed.

Lemma admin_path_renders_admin_view_witness :
  next_answer admin_up host_options
  = Fulfilled (JsObject AdminPanel.module_object)
  ∧ AdminPanel.module_object !! "AdminPanelModule"
    = Some (JsClass AdminPanelModuleClass)
  ∧ navigate Dashboard.AppModule ["admin-panel"] admin_up
    = (Activated [AdminPanelComponent], called admin_up host_options).
Proof.
  split_and!; [reflexivity..|].
  apply (admin_path_renders_admin_view admin_up AdminPanel.module_object);
    reflexivity.
Defined.

(** *** The admin remote *)

(** C4: the admin bundle exposes exactly one module, under the key
    [./Module]; the file behind it exports exactly [AdminPanelModule],
    which declares exactly [AdminPanelComponent] and registers exactly
    one route, the empty path mapped to [AdminPanelComponent]. *)
Theorem admin_exposes_one_unit :
  map_to_list AdminWebpack.exposes
  = [("./Module", "./apps/admin/src/app/admin-panel/admin-panel.module.ts")]
  ∧ map_to_list admin_container = [("./Module", AdminPanel.module_object)]
  ∧ map_to_list AdminPanel.module_object
    = [("AdminPanelModule", JsClass AdminPanelModuleClass)]
  ∧ ngModuleDef AdminPanelModuleClass = Some AdminPanel.AdminPanelModule
  ∧ declarations AdminPanel.AdminPanelModule = [AdminPanelComponent]
  ∧ provided_routes AdminPanel.AdminPanelModule
    = [ {| path := "";
           component := Some AdminPanelComponent;
           loadChildren := None |} ].
Proof. split_and!; reflexivity. Qed.

(** Standalone, the admin application activates [AdminPanelComponent] at
    the empty URL, matches no other URL, and calls nothing. *)
Lemma navigate_admin (segments : list string) (w : World) :
  navigate Admin.AppModule segments w
  = (match segments with
     | [] => Activated [AdminPanelComponent]
     | _ :: _ => NoMatch
     end, w).
Proof. destruct segments; reflexivity. Qed.

(** C9: the admin application hands [forRoot] an empty table, so all its
    routes are those of [AdminPanelModule]; standalone, the empty URL
    activates [AdminPanelComponent] and no other URL matches. *)
Theorem admin_root_table_empty :
  root_routes Admin.AppModule = []
  ∧ provided_routes Admin.AppModule
    = provided_routes AdminPanel.AdminPanelModule
  ∧ provided_routes Admin.AppModule = AdminPanel.routes
  ∧ (∀ (segments : list string) (w : World),
       navigate Admin.AppModule segments w
       = (match segments with
          | [] => Activated [AdminPanelComponent]
          | _ :: _ => NoMatch
          end, w)).
Proof.
  split_and!; try reflexivity.
  apply navigate_admin.
Qed.

(** *** The running application *)

(** The function of the host route, on the state of the running
    application, is the callback of the declared route: it makes the one
    call and leaves the router's table alone. *)
Lemma call_loader_unfold (l : Loader) (rt : Runtime) :
  call_loader l rt
  = ((host_loadChildren (world rt)).1,
     {| router_config := router_config rt;
        world := called (world rt) host_options |}).
Proof. destruct l; reflexivity. Qed.

(** The table the router starts with stands for the routes the module
    provides. *)
Lemma entries_declared (c : Class) (m : NgModule) :
  ngModuleDef c = Some m →
  declaration <$> entries_of m = provided_routes m.
Proof. destruct c; intros [= <-]; reflexivity. Qed.








(** The first navigation of the host is the navigation of the declared
    table. *)
Lemma navigateByUrl_start_dashboard (segments : list string) (w : World) :
  (navigateByUrl segments (start Dashboard.AppModule w)).1
  = (navigate Dashboard.AppModule segments w).1
  ∧ world (navigateByUrl segments (start Dashboard.AppModule w)).2
    = (navigate Dashboard.AppModule segments w).2.
Proof.
  unfold navigateByUrl, start. cbn [router_config].
  change (entries_of Dashboard.AppModule)
    with [ {| entry_path := "admin-panel";
              entry_component := None;
              entry_loadChildren := Some AdminPanelLoader;
              loadedConfig := None |} ].
  cbn [length visit_from router_config lookup list_lookup entry_path].
  destruct (decide (head segments = Some "admin-panel")) as [Hh|Hh].
  - destruct segments as [|s rest]; [done|]. injection Hh as ->.
    change (consume _ _) with (Some rest).
    rewrite navigate_admin_panel. unfold enter_entry.
    cbn [entry_loadChildren loadedConfig entry_component].
    rewrite call_loader_unfold. cbn [world router_config].
    destruct (host_loadChildren w).1 as [v| |]; try done.
    destruct v; try done.
    destruct (ngModuleDef c) as [m|]; try done.
    cbn [loaded_routes].
    change children_depth with 7.
    destruct (recognize 7 (provided_routes m) rest (called w host_options))
      as [n w1].
    destruct n; done.
  - rewrite navigate_elsewhere by done.
    destruct segments as [|s rest]; [done|].
    change (consume _ _) with (consume ["admin-panel"] (s :: rest)).
    cbn [consume]. rewrite decide_False by (intros <-; by apply Hh).
    done.
Qed.

(** Standalone, the admin application is the same after a navigation. *)
Lemma navigateByUrl_admin (segments : list string) (w : World) :
  navigateByUrl segments (start Admin.AppModule w)
  = (match segments with
     | [] => Activated [AdminPanelComponent]
     | _ :: _ => NoMatch
     end, start Admin.AppModule w).
Proof. destruct segments; reflexivity. Qed.


(** Once the module was loaded the router goes on in what it kept: the
    host opened at [admin-panel], sent to the root and back, fetches the
    remote once; a load that failed is tried again. *)
Lemma second_visit_uses_the_kept_module :
  (navigations [["admin-panel"]; []; ["admin-panel"]]
     (start Dashboard.AppModule admin_up)).1
  = [Activated [AdminPanelComponent]; Activated [];
     Activated [AdminPanelComponent]]
  ∧ calls (world (navigations [["admin-panel"]; []; ["admin-panel"]]
                    (start Dashboard.AppModule admin_up)).2)
    = [host_options]
  ∧ calls (world (navigations [["admin-panel"]; ["admin-panel"]]
                    (start Dashboard.AppModule
                       (answering (Rejected JsNull)))).2)
    = [host_options; host_options].
Proof. split_and!; reflexivity. Qed.

(** *** Both applications *)

Lemma bootstrapModule_dashboard (url : list string) (w : World) :
  bootstrapModule Dashboard.AppModule url w
  = ({| initial_navigation :=
          Some (navigateByUrl url (start Dashboard.AppModule w)).1;
        shell := [Dashboard.AppComponent] |},
     (navigateByUrl url (start Dashboard.AppModule w)).2).
Proof.
  unfold bootstrapModule. cbn [router_options Dashboard.AppModule imports
    flat_map app head fmap option_fmap option_map initialNavigation bootstrap].
  by destruct (navigateByUrl url (start Dashboard.AppModule w)).
Qed.

Lemma bootstrapModule_admin (url : list string) (w : World) :
  bootstrapModule Admin.AppModule url w
  = ({| initial_navigation :=
          Some (navigateByUrl url (start Admin.AppModule w)).1;
        shell := [Admin.AppComponent] |},
     (navigateByUrl url (start Admin.AppModule w)).2).
Proof.
  unfold bootstrapModule. cbn [router_options Admin.AppModule imports
    flat_map app head fmap option_fmap option_map initialNavigation bootstrap].
  by destruct (navigateByUrl url (start Admin.AppModule w)).
Qed.

(** C10: each root module bootstraps exactly its [AppComponent] and
    configures the router once, with [initialNavigation] ['enabled'];
    so starting either application, at whatever URL, performs the
    initial navigation, which is the navigation of the declared table to
    that URL, and hands exactly the one shell component to the
    bootstrap. *)
Theorem root_modules_bootstrap_AppComponent (url : list string) (w : World) :
  bootstrap Dashboard.AppModule = [Dashboard.AppComponent]
  ∧ bootstrap Admin.AppModule = [Admin.AppComponent]
  ∧ router_options Dashboard.AppModule
    = [ {| initialNavigation := enabled |} ]
  ∧ router_options Admin.AppModule
    = [ {| initialNavigation := enabled |} ]
  ∧ (bootstrapModule Dashboard.AppModule url w).1
    = {| initial_navigation :=
           Some (navigate Dashboard.AppModule url w).1;
         shell := [Dashboard.AppComponent] |}
  ∧ world (bootstrapModule Dashboard.AppModule url w).2
    = (navigate Dashboard.AppModule url w).2
  ∧ (bootstrapModule Admin.AppModule url w).1
    = {| initial_navigation := Some (navigate Admin.AppModule url w).1;
         shell := [Admin.AppComponent] |}
  ∧ world (bootstrapModule Admin.AppModule url w).2
    = (navigate Admin.AppModule url w).2.
Proof.
  split_and!; try reflexivity.
  - rewrite bootstrapModule_dashboard. cbn [fst].
    by rewrite (proj1 (navigateByUrl_start_dashboard url w)).
  - rewrite bootstrapModule_dashboard. cbn [snd].
    apply navigateByUrl_start_dashboard.
  - rewrite bootstrapModule_admin, navigateByUrl_admin, navigate_admin.
    reflexivity.
  - rewrite bootstrapModule_admin, navigateByUrl_admin, navigate_admin.
    reflexivity.
Qed.

(** C7: two development servers and no other, the dashboard on port
    4200 and the admin on port 4201; the entry file of the admin bundle
    is served at ['http://localhost:4201/remoteEntry.js'].  The host
    route references that address: navigating to it makes a call there,
    every call of any navigation of the host goes there, and it is the
    address of the one remote the host's bundler options name. *)
Theorem two_dev_endpoints_one_remote_entry :
  (λ c, (project c, port c)) <$> ng_add
  = [("dashboard", 4200%N); ("admin", 4201%N)]
  ∧ dev_port "dashboard" = Some 4200%N
  ∧ dev_port "admin" = Some 4201%N
  ∧ dev_url "admin" AdminWebpack.filename
    = Some "http://localhost:4201/remoteEntry.js"
  ∧ map_to_list DashboardWebpack.remotes
    = [("admin", "admin@http://localhost:4201/remoteEntry.js")]
  ∧ (∀ (segments : list string) (w : World),
       Forall (λ o, remoteEntry o = "http://localhost:4201/remoteEntry.js")
         (drop (length (calls w))
            (calls (navigate Dashboard.AppModule segments w).2)))
  ∧ (∀ p : string, is_Some (dev_port p) ↔ p = "dashboard" ∨ p = "admin")
  ∧ (∀ w : World,
       ∃ o : LoadRemoteModuleOptions,
         calls (navigate Dashboard.AppModule ["admin-panel"] w).2
         = (calls w ++ [o])%list
         ∧ remoteEntry o = "http://localhost:4201/remoteEntry.js"
         ∧ Some (remoteEntry o) = dev_url "admin" AdminWebpack.filename)
  ∧ (∀ (r : Route) (load : IO (Promise JsValue)) (w : World),
       r ∈ Dashboard.routes → loadChildren r = Some load →
       remoteEntry <$> drop (length (calls w)) (calls (load w).2)
       = ["http://localhost:4201/remoteEntry.js"]).
Proof.
  split_and!; try reflexivity.
  - intros segments w.
    destruct (recognize_extends max_depth
                (provided_routes Dashboard.AppModule) segments w)
      as [_ [k Hk]].
    { by apply (workspace_routes_tame DashboardAppModule). }
    unfold navigate. rewrite Hk, drop_app_length.
    apply Forall_replicate. reflexivity.
  - intros p. unfold dev_port, ng_add. cbn.
    repeat case_decide; simplify_eq/=; split;
      first [ by eauto | by intros [?|?] | by intros [? ?] ].
  - intros w. exists host_options. split_and!; [|reflexivity..].
    rewrite navigate_admin_panel.
    destruct (host_loadChildren w).1 as [v| |]; try reflexivity.
    destruct v; try reflexivity.
    destruct (ngModuleDef c) as [m|] eqn:Hm; try reflexivity.
    by rewrite (children_of_empty c m).
  - intros r load w Hr Hload. apply list_elem_of_singleton in Hr as ->.
    injection Hload as <-.
    change (calls (_ w).2) with (calls w ++ [host_options])%list.
    by rewrite drop_app_length.
Qed.


(** * Further properties *)

(** *** The resolver on what the load delivers *)

(** When the load is fulfilled with [undefined] or [null], the property
    read of the resolver throws: the route's promise is rejected with
    that [TypeError], after the one call, and every navigation through
    the route ends in it. *)
Theorem nullish_module_rejects_with_TypeError (w : World) (v : JsValue)
    (Hok : next_answer w host_options = Fulfilled v)
    (Hnullish : v = JsUndefined ∨ v = JsNull) :
  ∃ message : string,
    host_loadChildren w
    = (Rejected (TypeError message), called w host_options)
    ∧ ∀ rest : list string,
        navigate Dashboard.AppModule ("admin-panel" :: rest) w
        = (LoadRejected (TypeError message), called w host_options).
Proof.
  destruct Hnullish as [-> | ->]; eexists; split.
  - rewrite host_loadChildren_unfold, Hok. reflexivity.
  - intros rest.
    by rewrite navigate_admin_panel, host_loadChildren_unfold, Hok.
  - rewrite host_loadChildren_unfold, Hok. reflexivity.
  - intros rest.
    by rewrite navigate_admin_panel, host_loadChildren_unfold, Hok.
Qed.

Lemma nullish_module_rejects_with_TypeError_witness :
  next_answer (answering (Fulfilled JsNull)) host_options = Fulfilled JsNull
  ∧ ∃ message : string,
      host_loadChildren (answering (Fulfilled JsNull))
      = (Rejected (TypeError message),
         called (answering (Fulfilled JsNull)) host_options)
      ∧ ∀ rest : list string,
          navigate Dashboard.AppModule ("admin-panel" :: rest)
            (answering (Fulfilled JsNull))
          = (LoadRejected (TypeError message),
             called (answering (Fulfilled JsNull)) host_options).
Proof.
  split; [reflexivity|].
  apply (nullish_module_rejects_with_TypeError
           (answering (Fulfilled JsNull)) JsNull); [reflexivity|].
  by right.
Defined.

Lemma load_pending_stays_pending_witness :
  next_answer (answering Pending) host_options = Pending
  ∧ navigate Dashboard.AppModule ["admin-panel"] (answering Pending)
    = (LoadPending, called (answering Pending) host_options).
Proof.
  split; [reflexivity|].
  apply (load_pending_stays_pending (answering Pending)). reflexivity.
Defined.

(** *** Navigations of the host *)

(** With the admin panel module delivered, [admin-panel] itself is the
    only URL below the host route that leads anywhere: any longer URL
    loads the module, with the one call, and then matches nothing. *)
Theorem no_route_below_admin_panel
    (w : World) (m : gmap string JsValue) (rest : list string)
    (Hok : next_answer w host_options = Fulfilled (JsObject m))
    (Hexport : m !! "AdminPanelModule" = Some (JsClass AdminPanelModuleClass)) :
  navigate Dashboard.AppModule ("admin-panel" :: rest) w
  = (match rest with
     | [] => Activated [AdminPanelComponent]
     | _ :: _ => NoMatch
     end, called w host_options).
Proof.
  rewrite navigate_admin_panel, host_loadChildren_unfold, Hok.
  cbn [promise_then get_property fst]. rewrite Hexport.
  destruct rest; reflexivity.
Qed.

Lemma no_route_below_admin_panel_witness :
  next_answer admin_up host_options
  = Fulfilled (JsObject AdminPanel.module_object)
  ∧ AdminPanel.module_object !! "AdminPanelModule"
    = Some (JsClass AdminPanelModuleClass)
  ∧ navigate Dashboard.AppModule ["admin-panel"; "users"] admin_up
    = (NoMatch, called admin_up host_options).
Proof.
  split_and!; [reflexivity..|].
  apply (no_route_below_admin_panel
           admin_up AdminPanel.module_object ["users"]); reflexivity.
Defined.

(** A module object without the export makes every navigation through
    the host route fail, after the one call: [undefined] is no module,
    nothing is activated and no other route is tried. *)
Theorem missing_export_ends_navigation
    (w : World) (m : gmap string JsValue) (rest : list string)
    (Hok : next_answer w host_options = Fulfilled (JsObject m))
    (Hmissing : m !! "AdminPanelModule" = None) :
  navigate Dashboard.AppModule ("admin-panel" :: rest) w
  = (NotAModule JsUndefined, called w host_options).
Proof.
  rewrite navigate_admin_panel, host_loadChildren_unfold, Hok.
  cbn [promise_then get_property fst]. by rewrite Hmissing.
Qed.

Lemma missing_export_ends_navigation_witness :
  next_answer (answering (Fulfilled (JsObject ∅))) host_options
  = Fulfilled (JsObject ∅)
  ∧ (∅ : gmap string JsValue) !! "AdminPanelModule" = None
  ∧ navigate Dashboard.AppModule ["admin-panel"]
      (answering (Fulfilled (JsObject ∅)))
    = (NotAModule JsUndefined,
       called (answering (Fulfilled (JsObject ∅))) host_options).
Proof.
  split_and!; [reflexivity..|].
  apply (missing_export_ends_navigation
           (answering (Fulfilled (JsObject ∅))) ∅ []); reflexivity.
Defined.



(** *** The host's template *)



(** *** Bundler options and development servers *)

(** In the [shared] option the mapping descriptors win over the named
    packages: the shared packages are the named ones and the mapped
    ones, a mapped package keeps its descriptor, and a package that is
    not mapped is a singleton with a strict version. *)
Theorem shared_named_unless_mapped (descriptors : gmap string SharedConfig) :
  dom (AdminWebpack.shared descriptors)
  = dom descriptors
    ∪ {[ "@angular/core"; "@angular/common"; "@angular/router" ]}
  ∧ (∀ k c, descriptors !! k = Some c →
            AdminWebpack.shared descriptors !! k = Some c)
  ∧ (∀ k c, descriptors !! k = None →
            AdminWebpack.shared descriptors !! k = Some c →
            c = {| singleton := true; strictVersion := true |}).
Proof.
  unfold AdminWebpack.shared. split_and!.
  - rewrite dom_union_L. unfold AdminWebpack.shared_named.
    rewrite !dom_insert_L, dom_singleton_L. set_solver.
  - intros k c Hk. by apply lookup_union_Some_l.
  - intros k c Hk. rewrite lookup_union_r by done.
    unfold AdminWebpack.shared_named. intros Hc.
    repeat (apply lookup_insert_Some in Hc as [[_ <-]|[_ Hc]]; [done|]).
    by apply lookup_singleton_Some in Hc as [_ <-].
Qed.

(** Every remote the dashboard's bundler options declare is the admin
    bundle: its name is the one the admin options give and the route
    passes, and its address is the one the route loads from and the
    admin development server serves the entry file at. *)
Theorem declared_remote_is_the_loaded_one (name target : string)
    (Hremote : DashboardWebpack.remotes !! name = Some target) :
  name = AdminWebpack.name
  ∧ name = remoteName host_options
  ∧ target = name ++ "@" ++ remoteEntry host_options
  ∧ dev_url name AdminWebpack.filename = Some (remoteEntry host_options).
Proof.
  unfold DashboardWebpack.remotes in Hremote.
  apply lookup_singleton_Some in Hremote as [<- <-].
  split_and!; reflexivity.
Qed.

Lemma declared_remote_is_the_loaded_one_witness :
  DashboardWebpack.remotes !! "admin"
  = Some "admin@http://localhost:4201/remoteEntry.js"
  ∧ dev_url "admin" AdminWebpack.filename = Some (remoteEntry host_options).
Proof.
  split; [reflexivity|].
  apply (declared_remote_is_the_loaded_one
           "admin" "admin@http://localhost:4201/remoteEntry.js").
  reflexivity.
Defined.

(** The development servers never share a port, and only the projects
    that were configured have one. *)
Theorem dev_ports_distinct (p q : string) (n : N)
    (Hp : dev_port p = Some n) (Hq : dev_port q = Some n) :
  p = q ∧ p ∈ project <$> ng_add.
Proof.
  unfold dev_port, ng_add in *. cbn in Hp, Hq |- *.
  repeat case_decide; simplify_eq/=; split; set_solver.
Qed.

Lemma dev_ports_distinct_witness :
  dev_port "admin" = Some 4201%N
  ∧ "admin" = "admin" ∧ "admin" ∈ project <$> ng_add.
Proof.
  split; [reflexivity|].
  apply (dev_ports_distinct "admin" "admin" 4201%N); reflexivity.
Defined.

(** *** Module metadata *)

(** The metadata of every module is consistent: what a module
    bootstraps and what its own routes render it declares, what it
    exports it declares or imports, and no class is declared by two
    modules. *)
Theorem workspace_modules_well_formed (c : Class) (m : NgModule)
    (Hm : ngModuleDef c = Some m) :
  ngClass m = c
  ∧ bootstrap m ⊆ declarations m
  ∧ omap component (own_routes m) ⊆ declarations m
  ∧ exports m ⊆ (declarations m ++ (import_class <$> imports m))%list
  ∧ (∀ c' m' x, ngModuleDef c' = Some m' →
                x ∈ declarations m → x ∈ declarations m' → c' = c).
Proof.
  split_and!.
  - destruct c; by simplify_eq/=.
  - destruct c; simplify_eq/=; set_solver.
  - destruct c; simplify_eq/=; set_solver.
  - destruct c; simplify_eq/=; set_solver.
  - intros c' m' x Hm' Hx Hx'.
    destruct c, c'; simplify_eq/=; set_solver.
Qed.

Lemma workspace_modules_well_formed_witness :
  ngModuleDef AdminPanelModuleClass = Some AdminPanel.AdminPanelModule
  ∧ exports AdminPanel.AdminPanelModule
    ⊆ (declarations AdminPanel.AdminPanelModule
       ++ (import_class <$> imports AdminPanel.AdminPanelModule))%list.
Proof.
  split; [reflexivity|].
  apply (workspace_modules_well_formed
           AdminPanelModuleClass AdminPanel.AdminPanelModule).
  reflexivity.
Defined.
